(** * The msgspec blueprint of drf-spectacular

    A shallow embedding of [docs/blueprints/msgspec.py]: the helper
    [get_iterable_class] and the three methods of [MsgspecExtension]
    ([_matches], [get_name], [map_serializer]), followed by the properties
    the specification states about them.

    Python values are modelled as far as the code probes them
    ([inspect.isclass], [__name__], [__args__], [__class__], [issubclass]);
    exceptions are an explicit error result; the class attribute
    [target_class], which [_matches] rewrites, and the component registry,
    which [map_serializer] fills, are threaded as explicit state. *)

From Stdlib Require Import Ascii String.
From stdpp Require Import gmap strings list fin_maps pretty.

(** ** Exceptions and the error monad *)

Inductive exn : Type :=
| TypeError
| AttributeError
| IndexError
| KeyError
| OtherError (msg : string).

Inductive result (A : Type) : Type :=
| Ok (a : A)
| Raise (e : exn).

Arguments Ok {A} a.
Arguments Raise {A} e.

#[global] Instance result_ret : MRet result := λ A a, Ok a.

#[global] Instance result_bind : MBind result := λ A B k r,
  match r with
  | Ok a => k a
  | Raise e => Raise e
  end.

Definition returns {A : Type} (r : result A) : Prop := ∃ a, r = Ok a.

(** ** Python values, as far as the blueprint looks at them *)

(** A class object.  [cid] stands for the identity of the class, [cname]
    is its [__name__], and [cmro] lists the identities of its proper
    ancestors (the tail of [__mro__]). *)
Record klass : Type := Klass {
  cid : positive;
  cname : string;
  cmro : list positive;
}.

(** The value of a [__name__] attribute: a [str], or (on an object that
    sets the attribute itself) something else, here an [int]. *)
Inductive pyname : Type :=
| NameStr (s : string)
| NameInt (z : Z).

(** The value of an [__args__] attribute: a sequence (a tuple, as
    generic aliases have it), a value that cannot be subscripted (here an
    [int]), or a mapping (here a [dict] with integer keys). *)
Inductive pyargs (A : Type) : Type :=
| ArgsSeq (items : list A)
| ArgsInt (z : Z)
| ArgsDict (entries : list (Z * A)).

Arguments ArgsSeq {A} items.
Arguments ArgsInt {A} z.
Arguments ArgsDict {A} entries.

(** A documentation target: a class ([inspect.isclass] holds), or any
    other object.  Of such an object the code reads the runtime class
    [__class__] and the optional attributes [__name__] and [__args__];
    [issubclass] reads its [__bases__], if it has a tuple of classes
    there (a generic alias forwards the attribute to its origin), and
    [==] asks its [__eq__]: [eq_any] holds for an object whose [__eq__]
    answers [True] to every operand, as [unittest.mock.ANY] does, and
    fails for an object that compares by identity. *)
#[warnings="-register-all"]
Inductive pyobj : Type :=
| PClass (k : klass)
| PObj (cls : klass) (name : option pyname) (args : option (pyargs pyobj))
       (bases : option (list klass)) (eq_any : bool).

Definition isclass (obj : pyobj) : bool :=
  match obj with
  | PClass _ => true
  | PObj _ _ _ _ _ => false
  end.

(** [obj.__class__]; the class of a class is its metaclass, which the
    blueprint never asks for, so [type] stands for every metaclass. *)
Definition type_class : klass := Klass 1 "type" [2%positive].

Definition class_of (obj : pyobj) : klass :=
  match obj with
  | PClass _ => type_class
  | PObj cls _ _ _ _ => cls
  end.

(** [getattr(obj, '__name__', None)] *)
Definition name_attr (obj : pyobj) : option pyname :=
  match obj with
  | PClass k => Some (NameStr (cname k))
  | PObj _ name _ _ _ => name
  end.

(** [obj.__name__] *)
Definition get_name_attr (obj : pyobj) : result pyname :=
  match name_attr obj with
  | Some n => Ok n
  | None => Raise AttributeError
  end.

(** [obj.__args__]; a plain class has no such attribute. *)
Definition get_args_attr (obj : pyobj) : result (pyargs pyobj) :=
  match obj with
  | PClass _ => Raise AttributeError
  | PObj _ _ (Some a) _ _ => Ok a
  | PObj _ _ None _ _ => Raise AttributeError
  end.

(** [getattr(obj, '__bases__', None)], for an object that is not a
    class. *)
Definition bases_attr (obj : pyobj) : option (list klass) :=
  match obj with
  | PClass _ => None
  | PObj _ _ _ bases _ => bases
  end.

(** [d[0]] on a [dict]: the value stored under the key 0. *)
Fixpoint dict_get0 {A : Type} (entries : list (Z * A)) : option A :=
  match entries with
  | [] => None
  | (k, v) :: entries' => if Z.eqb k 0 then Some v else dict_get0 entries'
  end.

(** [a[0]] *)
Definition subscript0 (a : pyargs pyobj) : result pyobj :=
  match a with
  | ArgsSeq (x :: _) => Ok x
  | ArgsSeq [] => Raise IndexError
  | ArgsInt _ => Raise TypeError
  | ArgsDict entries =>
      match dict_get0 entries with
      | Some x => Ok x
      | None => Raise KeyError
      end
  end.

(** [str.lower].  Strings are byte strings; the letters A to Z are the
    only bytes that change. *)
Definition lower_ascii (c : ascii) : ascii :=
  let n := nat_of_ascii c in
  if (65 <=? n)%nat && (n <=? 90)%nat then ascii_of_nat (n + 32) else c.

Fixpoint lower (s : string) : string :=
  match s with
  | EmptyString => EmptyString
  | String c s' => String (lower_ascii c) (lower s')
  end.

(** [n.lower()] on the value of a [__name__]: an [int] has no such
    method. *)
Definition name_lower (n : pyname) : result string :=
  match n with
  | NameStr s => Ok (lower s)
  | NameInt _ => Raise AttributeError
  end.

(** [str(n)], as an f-string formats it. *)
Definition name_str (n : pyname) : string :=
  match n with
  | NameStr s => s
  | NameInt z => pretty z
  end.

(** The class attribute [target_class]: a dotted path until it is first
    needed, then the class it resolves to, or [None]. *)
Inductive target_class_val : Type :=
| TCStr (path : string)
| TCNone
| TCClass (k : klass).

(** [issubclass(c, t)] for two classes: [t] is [c] or one of its
    ancestors. *)
Definition subclass_of (c t : klass) : bool :=
  bool_decide (cid t ∈ cid c :: cmro c).

(** [issubclass(obj, t)].  The second argument must be a class.  The
    first is a class, or an object with a tuple in [__bases__], which
    CPython then walks as it would walk the bases of a class: the
    object passes when [t] is one of its bases or an ancestor of one.
    Any other first argument raises [TypeError]. *)
Definition issubclass (obj : pyobj) (t : target_class_val) : result bool :=
  match t with
  | TCClass k =>
      match obj with
      | PClass c => Ok (subclass_of c k)
      | PObj _ _ _ (Some bases) _ => Ok (existsb (λ b, subclass_of b k) bases)
      | PObj _ _ _ None _ => Raise TypeError
      end
  | _ => Raise TypeError
  end.

(** [obj == t].  Classes compare by identity; an object that is not a
    class equals what its [__eq__] says it equals. *)
Definition py_eq (obj : pyobj) (t : target_class_val) : bool :=
  match obj with
  | PClass c =>
      match t with
      | TCClass k => bool_decide (cid c = cid k)
      | _ => false
      end
  | PObj _ _ _ _ eq_any => eq_any
  end.

(** [try: r except TypeError: h] *)
Definition except_TypeError {A : Type} (r h : result A) : result A :=
  match r with
  | Raise TypeError => h
  | _ => r
  end.

(** ** [get_iterable_class] *)

Definition get_iterable_class (obj : pyobj) : result (pyobj * bool) :=
  if isclass obj then Ok (obj, false)
  else
    nm ← name_lower (default (NameStr "none") (name_attr obj)) ;
    if String.eqb nm "list" then
      a ← get_args_attr obj ;
      x ← subscript0 a ;
      Ok (x, true)
    else
      Ok (PClass (class_of obj), false).

(** ** JSON Schema fragments *)

#[warnings="-register-all"]
Inductive json : Type :=
| JNull
| JBool (b : bool)
| JInt (z : Z)
| JStr (s : string)
| JList (items : list json)
| JDict (entries : list (string * json)).

(** A schema fragment is a JSON object, kept in insertion order as a
    Python [dict] keeps it. *)
Definition schema : Type := list (string * json).

(** ['k' in d] *)
Definition has_key (k : string) (d : schema) : bool :=
  existsb (λ kv, String.eqb (fst kv) k) d.

(** ** The component registry *)

Inductive component_type : Type :=
| SCHEMA
| SECURITY_SCHEMA.

Record ResolvedComponent : Type := MkResolvedComponent {
  rc_name : string;
  rc_type : component_type;
  rc_object : string;
  rc_schema : schema;
}.

(** Modelled from the spec: [ComponentRegistry.register_on_missing] of
    [drf_spectacular.plumbing] is not part of the blueprint's file.  The
    specification describes the registry as a store keyed by component
    name with the one operation [register_if_absent(name, kind, body)],
    which inserts an entry only when no component of that name is
    registered and never overwrites. *)
Definition register_on_missing (component : ResolvedComponent)
    (registry : gmap string ResolvedComponent) : gmap string ResolvedComponent :=
  match registry !! rc_name component with
  | Some _ => registry
  | None => <[rc_name component := component]> registry
  end.

(** The component the loop of [map_serializer] builds for one entry. *)
Definition component_of (sub_name : string) (sub_schema : schema)
    : ResolvedComponent :=
  {| rc_name := sub_name; rc_type := SCHEMA;
     rc_object := sub_name; rc_schema := sub_schema |}.

(** The reference template [map_serializer] passes to the compiler. *)
Definition ref_template : string := "#/components/schemas/{name}".

(** ** The extension class *)

Record extension : Type := Extension {
  target_class : target_class_val;
  match_subclasses : bool;
}.

Definition MsgspecExtension : extension :=
  {| target_class := TCStr "msgspec.Struct"; match_subclasses := true |}.

Section Blueprint.

(** Django's [import_string]: the object a dotted path names, or nothing
    when the import fails. *)
Variable import_string : string → option klass.

(** [msgspec.json.schema_components(types, ref_template=...)]: one
    top-level fragment per type, and the mapping of component names to
    fragments; or the exception the compiler raises. *)
Variable schema_components :
  list pyobj → string → result (list schema * gmap string schema).

(** Modelled from the spec: [OpenApiSerializerExtension._load_class] is
    not part of the blueprint's file.  The specification has the marker
    type resolved from its dotted path the first time it is needed and
    cached, and unavailable ([None]) when its library is not present. *)
Definition _load_class (cls : extension) : extension :=
  match target_class cls with
  | TCStr path =>
      {| target_class :=
           match import_string path with
           | Some k => TCClass k
           | None => TCNone
           end;
         match_subclasses := match_subclasses cls |}
  | _ => cls
  end.

Definition isinstance_str (v : target_class_val) : bool :=
  match v with
  | TCStr _ => true
  | _ => false
  end.

Definition is_None (v : target_class_val) : bool :=
  match v with
  | TCNone => true
  | _ => false
  end.

(** The first statement of [_matches]: a [target_class] that is still
    a path is resolved. *)
Definition resolve (cls : extension) : extension :=
  if isinstance_str (target_class cls) then _load_class cls else cls.

(** [MsgspecExtension._matches]: the result, and the class with its
    [target_class] as the call leaves it. *)
Definition _matches (cls : extension) (target : pyobj)
    : result bool * extension :=
  let cls := resolve cls in
  if is_None (target_class cls) then (Ok false, cls)
  else if match_subclasses cls then
    (except_TypeError
       ('(class_val, _) ← get_iterable_class target ;
        issubclass class_val (target_class cls))
       (Ok false), cls)
  else
    ('(class_val, _) ← get_iterable_class target ;
     Ok (py_eq class_val (target_class cls)), cls).

(** [MsgspecExtension.get_name] *)
Definition get_name (target : pyobj) : result pyname :=
  '(class_val, is_iterable) ← get_iterable_class target ;
  class_name ← get_name_attr class_val ;
  if (is_iterable : bool) then Ok (NameStr ("ArrayOf" +:+ name_str class_name))
  else Ok class_name.

(** [components.pop(key)]: the entry and the mapping without it. *)
Definition pop (key : pyname) (components : gmap string schema)
    : result (schema * gmap string schema) :=
  match key with
  | NameStr k =>
      match components !! k with
      | Some s => Ok (s, delete k components)
      | None => Raise KeyError
      end
  | NameInt _ => Raise KeyError
  end.

(** The loop over [components.items()].  The keys of a [dict] are
    distinct, so the order of the iteration does not show in the
    registry the loop leaves (see [register_components_lookup]). *)
Definition register_components (components : gmap string schema)
    (registry : gmap string ResolvedComponent) : gmap string ResolvedComponent :=
  map_fold
    (λ sub_name sub_schema reg,
       register_on_missing (component_of sub_name sub_schema) reg)
    registry components.

(** The shape decision of [map_serializer]: the fragment to return and
    the components left to register. *)
Definition select_schema (target : pyobj) (possible_schema : schema)
    (components : gmap string schema) : result (schema * gmap string schema) :=
  if has_key "type" possible_schema then Ok (possible_schema, components)
  else
    nm ← get_name_attr target ;
    pop nm components.

(** [MsgspecExtension.map_serializer]: the fragment returned and the
    registry of [auto_schema] after the call.  Every exception is
    raised before the registry is touched. *)
Definition map_serializer (target : pyobj)
    (registry : gmap string ResolvedComponent)
    : result (schema * gmap string ResolvedComponent) :=
  '(possible_schemas, components) ←
    schema_components [target] ref_template ;
  possible_schema ←
    match possible_schemas with
    | s :: _ => Ok s
    | [] => Raise IndexError
    end ;
  '(schema, components) ← select_schema target possible_schema components ;
  Ok (schema, register_components components registry).

End Blueprint.

(** ** Concrete classes, targets and compiler output *)

Definition object_id : positive := 2.

Definition object_class : klass := Klass object_id "object" [].
Definition int_class : klass := Klass 3 "int" [object_id].
Definition GenericAlias : klass := Klass 4 "GenericAlias" [object_id].
Definition function_class : klass := Klass 5 "function" [object_id].

(** [msgspec.Struct] and three structs:
    [class Point(Struct): x: int; y: int],
    [class Line(Struct): start: Point; end: Point] and
    [class Path(Struct): first: Point; rest: list[Line]]. *)
Definition Struct : klass := Klass 10 "Struct" [object_id].
Definition Point : klass := Klass 11 "Point" [cid Struct; object_id].
Definition Line : klass := Klass 12 "Line" [cid Struct; object_id].
Definition Path : klass := Klass 13 "Path" [cid Struct; object_id].

(** A parameterised generic [types.GenericAlias(origin, params)] such
    as [list[T]], for an origin class that derives from [object] alone
    (Python 3.11, where [inspect.isclass] rejects the alias): not a
    class; it forwards [__name__] and [__bases__] to its origin and
    keeps its parameters in [__args__]. *)
Definition generic_alias (origin : string) (params : list pyobj) : pyobj :=
  PObj GenericAlias (Some (NameStr origin)) (Some (ArgsSeq params))
       (Some [object_class]) false.

Definition list_of (T : pyobj) : pyobj := generic_alias "list" [T].

(** The integer [42]. *)
Definition forty_two : pyobj := PObj int_class None None None false.

(** A function declared as [def list(request): ...]. *)
Definition view_named_list : pyobj :=
  PObj function_class (Some (NameStr "list")) None None false.

(** An installation with msgspec, and one without. *)
Definition import_msgspec (path : string) : option klass :=
  if String.eqb path "msgspec.Struct" then Some Struct else None.

Definition import_nothing (path : string) : option klass := None.

Definition ref_to (name : string) : schema :=
  [("$ref", JStr ("#/components/schemas/" +:+ name))].

Definition integer_schema : json := JDict [("type", JStr "integer")].

(** What msgspec emits for [Point] in the components mapping. *)
Definition Point_schema : schema :=
  [("title", JStr "Point");
   ("type", JStr "object");
   ("properties", JDict [("x", integer_schema); ("y", integer_schema)]);
   ("required", JList [JStr "x"; JStr "y"])].

Definition Line_schema : schema :=
  [("title", JStr "Line");
   ("type", JStr "object");
   ("properties", JDict [("start", JDict (ref_to "Point"));
                         ("end", JDict (ref_to "Point"))]);
   ("required", JList [JStr "start"; JStr "end"])].

Definition Path_schema : schema :=
  [("title", JStr "Path");
   ("type", JStr "object");
   ("properties",
    JDict [("first", JDict (ref_to "Point"));
           ("rest", JDict [("type", JStr "array");
                           ("items", JDict (ref_to "Line"))])]);
   ("required", JList [JStr "first"; JStr "rest"])].

Definition struct_components (k : klass)
    : result (list schema * gmap string schema) :=
  if bool_decide (cid k = cid Point) then
    Ok ([ref_to "Point"], {[ "Point" := Point_schema ]})
  else if bool_decide (cid k = cid Line) then
    Ok ([ref_to "Line"],
        {[ "Line" := Line_schema; "Point" := Point_schema ]})
  else if bool_decide (cid k = cid Path) then
    Ok ([ref_to "Path"],
        {[ "Path" := Path_schema; "Point" := Point_schema;
           "Line" := Line_schema ]})
  else Raise TypeError.

(** The output of [msgspec.json.schema_components] on the structs above
    and on [list[Point]]; any other type is refused. *)
Definition msgspec_components (types : list pyobj) (ref_template : string)
    : result (list schema * gmap string schema) :=
  match types with
  | [PClass k] => struct_components k
  | [PObj _ (Some (NameStr "list")) (Some (ArgsSeq [PClass k])) _ _] =>
      if bool_decide (cid k = cid Point) then
        Ok ([[("type", JStr "array"); ("items", JDict (ref_to "Point"))]],
            {[ "Point" := Point_schema ]})
      else Raise TypeError
  | _ => Raise TypeError
  end.

(** A compiler that files a struct under a name other than its
    [__name__]. *)
Definition renaming_components (types : list pyobj) (ref_template : string)
    : result (list schema * gmap string schema) :=
  Ok ([ref_to "geometry.Point"], {[ "geometry.Point" := Point_schema ]}).

Definition sentinel : ResolvedComponent :=
  {| rc_name := "Point"; rc_type := SCHEMA; rc_object := "Point";
     rc_schema := [("description", JStr "sentinel")] |}.

Definition registry_with_sentinel : gmap string ResolvedComponent :=
  {[ "Point" := sentinel ]}.

Definition registry_after_Path : gmap string ResolvedComponent :=
  {[ "Point" := sentinel; "Line" := component_of "Line" Line_schema ]}.

Definition registry_with_Point : gmap string ResolvedComponent :=
  {[ "Point" := component_of "Point" Point_schema ]}.

(** The extension with exact matching switched on. *)
Definition ExactExtension : extension :=
  {| target_class := TCStr "msgspec.Struct"; match_subclasses := false |}.

(** An instance [Point(1, 2)]: not a class, no [__name__]. *)
Definition a_point : pyobj := PObj Point None None None false.

(** An object named 'list' whose [__args__] is the integer 3. *)
Definition odd_list : pyobj :=
  PObj GenericAlias (Some (NameStr "list")) (Some (ArgsInt 3)) None false.

(** An object named 'list' whose [__args__] is the empty [dict]. *)
Definition dict_list : pyobj :=
  PObj GenericAlias (Some (NameStr "list")) (Some (ArgsDict [])) None false.

(** An object named 'list' whose [__args__] is the [dict]
    [{0: Point}]. *)
Definition dict_of_Point : pyobj :=
  PObj GenericAlias (Some (NameStr "list")) (Some (ArgsDict [(0%Z, PClass Point)]))
       None false.

(** [types.GenericAlias(Point, (int,))]: not a class; its [__name__] and
    [__bases__] are those of [Point]. *)
Definition Point_alias : pyobj :=
  PObj GenericAlias (Some (NameStr "Point")) (Some (ArgsSeq [PClass int_class]))
       (Some [Struct]) false.

(** [unittest.mock.ANY]: an instance of [_ANY] without [__name__], equal
    to everything. *)
Definition mock_ANY_class : klass := Klass 16 "_ANY" [object_id].
Definition mock_ANY : pyobj := PObj mock_ANY_class None None None true.

(** [list[()]]-like: named 'list', with an empty [__args__]. *)
Definition empty_list_alias : pyobj := generic_alias "list" [].

(** A struct declared as [class ArrayOfPoint(Struct)], and a second
    class named [Point], declared in another module. *)
Definition ArrayOfPoint : klass :=
  Klass 14 "ArrayOfPoint" [cid Struct; object_id].
Definition other_Point : klass := Klass 15 "Point" [cid Struct; object_id].

(** ** Properties *)

(** *** The error monad *)

Lemma bind_Ok {A B : Type} (r : result A) (k : A → result B) (b : B) :
  r ≫= k = Ok b → ∃ a, r = Ok a ∧ k a = Ok b.
Proof. destruct r as [a|e]; [eauto | discriminate]. Qed.

Lemma bind_Raise {A B : Type} (r : result A) (k : A → result B) (e : exn) :
  r ≫= k = Raise e → r = Raise e ∨ ∃ a, r = Ok a ∧ k a = Raise e.
Proof. intros H. destruct r as [a|e0]; [right; eauto | left; by inversion H]. Qed.

(** *** The registry *)

Lemma register_on_missing_lookup (c : ResolvedComponent)
    (reg : gmap string ResolvedComponent) (n : string) :
  register_on_missing c reg !! n =
  match reg !! n with
  | Some old => Some old
  | None => if decide (rc_name c = n) then Some c else None
  end.
Proof.
  unfold register_on_missing.
  destruct (reg !! rc_name c) as [old|] eqn:Hc.
  - destruct (reg !! n) as [old'|] eqn:Hn; [done|].
    case_decide; [congruence | done].
  - rewrite lookup_insert. case_decide as Heq.
    + subst n. by rewrite Hc.
    + by destruct (reg !! n).
Qed.

(** The loop registers exactly the names that were free: afterwards a
    name holds what it held before, or else the component built from the
    compiler's entry of that name. *)
Lemma register_components_lookup (comps : gmap string schema)
    (reg : gmap string ResolvedComponent) (n : string) :
  register_components comps reg !! n =
  match reg !! n with
  | Some old => Some old
  | None => component_of n <$> comps !! n
  end.
Proof.
  unfold register_components. revert n.
  apply (map_fold_weak_ind
    (λ (r : gmap string ResolvedComponent) (m : gmap string schema),
       ∀ n, r !! n = match reg !! n with
                     | Some old => Some old
                     | None => component_of n <$> m !! n
                     end)).
  - intros n. rewrite lookup_empty. by destruct (reg !! n).
  - intros i x m r Hi IH n.
    rewrite register_on_missing_lookup, IH. simpl.
    destruct (reg !! n) as [old|]; [done|].
    rewrite lookup_insert. case_decide as Heq.
    + subst n. by rewrite Hi.
    + by destruct (m !! n).
Qed.

Lemma register_components_union (comps : gmap string schema)
    (reg : gmap string ResolvedComponent) :
  register_components comps reg = reg ∪ map_imap (λ n s, Some (component_of n s)) comps.
Proof.
  apply map_eq. intros n.
  rewrite register_components_lookup, lookup_union, map_lookup_imap.
  destruct (reg !! n) as [old|], (comps !! n) as [s|]; done.
Qed.

Lemma register_components_idem (comps : gmap string schema)
    (reg : gmap string ResolvedComponent) :
  register_components comps (register_components comps reg) =
  register_components comps reg.
Proof.
  apply map_eq. intros n. rewrite !register_components_lookup.
  destruct (reg !! n) as [old|]; [done|].
  by destruct (comps !! n).
Qed.

(** *** [map_serializer] *)

Section SchemaFor.

Variable schema_components :
  list pyobj → string → result (list schema * gmap string schema).

(** Once the compiler has answered, [map_serializer] is the shape
    decision followed by the registration loop. *)
Lemma map_serializer_compiled (target : pyobj)
    (reg : gmap string ResolvedComponent) (top : schema) (rest : list schema)
    (comps : gmap string schema) :
  schema_components [target] ref_template = Ok (top :: rest, comps) →
  map_serializer schema_components target reg =
  '(s, remaining) ← select_schema target top comps ;
  Ok (s, register_components remaining reg).
Proof. intros Hc. unfold map_serializer. by rewrite Hc. Qed.

(** A call that returns went through the compiler and the shape
    decision. *)
Lemma map_serializer_Ok (target : pyobj) (reg reg' : gmap string ResolvedComponent)
    (s : schema) :
  map_serializer schema_components target reg = Ok (s, reg') →
  ∃ top rest comps remaining,
    schema_components [target] ref_template = Ok (top :: rest, comps) ∧
    select_schema target top comps = Ok (s, remaining) ∧
    reg' = register_components remaining reg.
Proof.
  unfold map_serializer. intros H.
  apply bind_Ok in H as ([tops comps] & Hc & H).
  apply bind_Ok in H as (top & Htop & H).
  apply bind_Ok in H as ([s' remaining] & Hsel & H).
  destruct tops as [|top' rest]; [discriminate|].
  injection Htop as ->. injection H as -> <-.
  by exists top, rest, comps, remaining.
Qed.

(** C1: when the compiler's top-level fragment has a 'type' key at its
    root, [map_serializer] returns that fragment verbatim; otherwise it
    takes the entry filed under the target's [__name__] out of the
    compiler's components mapping and returns that entry unchanged,
    leaving the mapping without it for the registration loop. *)
Theorem map_serializer_shape (target : pyobj)
    (reg : gmap string ResolvedComponent) (top : schema) (rest : list schema)
    (comps : gmap string schema) :
  schema_components [target] ref_template = Ok (top :: rest, comps) →
  (has_key "type" top = true →
     map_serializer schema_components target reg = Ok (top, register_components comps reg)) ∧
  (has_key "type" top = false →
     ∀ (n : string) (s : schema),
       name_attr target = Some (NameStr n) →
       comps !! n = Some s →
       map_serializer schema_components target reg =
       Ok (s, register_components (delete n comps) reg)).
Proof.
  intros Hc. rewrite (map_serializer_compiled _ _ _ _ _ Hc).
  unfold select_schema. split.
  - intros ->. reflexivity.
  - intros -> n s Hn Hs. unfold get_name_attr. rewrite Hn. simpl.
    by rewrite Hs.
Qed.

(** C2: a call of [map_serializer] that returns leaves every component
    that was registered before as it was, and registers under each free
    name the entry the shape decision left in the compiler's mapping,
    if there is one. *)
Theorem map_serializer_first_writer_wins (target : pyobj)
    (reg reg' : gmap string ResolvedComponent) (s : schema) :
  map_serializer schema_components target reg = Ok (s, reg') →
  ∃ top rest comps remaining,
    schema_components [target] ref_template = Ok (top :: rest, comps) ∧
    select_schema target top comps = Ok (s, remaining) ∧
    (∀ n old, reg !! n = Some old → reg' !! n = Some old) ∧
    (∀ n, reg !! n = None → reg' !! n = component_of n <$> remaining !! n).
Proof.
  intros H.
  apply map_serializer_Ok in H as (top & rest & comps & remaining & Hc & Hsel & ->).
  exists top, rest, comps, remaining. repeat split; try done.
  - intros n old Hn. by rewrite register_components_lookup, Hn.
  - intros n Hn. by rewrite register_components_lookup, Hn.
Qed.

(** C6, as the code has it: for a struct class whose top-level fragment
    has no 'type' key, [map_serializer] returns the entry the compiler
    filed under the class name; whether the returned fragment has a
    'type' key is whatever that entry has. *)
Theorem map_serializer_struct (T : klass)
    (reg : gmap string ResolvedComponent) (top : schema) (rest : list schema)
    (comps : gmap string schema) (entry : schema) :
  schema_components [PClass T] ref_template = Ok (top :: rest, comps) →
  has_key "type" top = false →
  comps !! cname T = Some entry →
  ∃ reg', map_serializer schema_components (PClass T) reg = Ok (entry, reg') ∧
    ∀ s reg'', map_serializer schema_components (PClass T) reg = Ok (s, reg'') →
      has_key "type" s = has_key "type" entry.
Proof.
  intros Hc Htop Hentry.
  rewrite (map_serializer_compiled _ _ _ _ _ Hc).
  unfold select_schema. rewrite Htop. simpl. rewrite Hentry. simpl.
  eexists. split; [reflexivity|].
  intros s reg'' [= -> _]. reflexivity.
Qed.

(** The fragment does not depend on the registry the call starts
    from. *)
Lemma map_serializer_fragment (target : pyobj)
    (reg reg2 : gmap string ResolvedComponent) (s : schema)
    (reg' : gmap string ResolvedComponent) :
  map_serializer schema_components target reg = Ok (s, reg') →
  ∃ remaining,
    reg' = register_components remaining reg ∧
    map_serializer schema_components target reg2 = Ok (s, register_components remaining reg2).
Proof.
  intros H.
  apply map_serializer_Ok in H as (top & rest & comps & remaining & Hc & Hsel & ->).
  exists remaining. split; [done|].
  rewrite (map_serializer_compiled _ _ _ _ _ Hc), Hsel. reflexivity.
Qed.

(** C8: two calls of [get_name] on one target give one name; a second
    call of [map_serializer] on the same target, made on the registry
    the first call left, returns the same fragment and leaves the
    registry as it found it; and a call that raises does so on every
    registry. *)
Theorem name_and_schema_idempotent (target : pyobj)
    (reg : gmap string ResolvedComponent) :
  (∀ n1 n2, get_name target = n1 → get_name target = n2 → n1 = n2) ∧
  (∀ s reg1, map_serializer schema_components target reg = Ok (s, reg1) →
             map_serializer schema_components target reg1 = Ok (s, reg1)) ∧
  (∀ e, map_serializer schema_components target reg = Raise e →
        ∀ reg2, map_serializer schema_components target reg2 = Raise e).
Proof.
  split; [congruence|split].
  - intros s reg1 H.
    destruct (map_serializer_fragment _ _ reg1 _ _ H) as (remaining & Hreg & H2).
    rewrite H2, Hreg. by rewrite register_components_idem.
  - intros e H reg2. revert H. unfold map_serializer.
    destruct (schema_components [target] ref_template) as [[tops comps]|e1];
      simpl; [|done].
    destruct tops as [|top rest]; simpl; [done|].
    destruct (select_schema target top comps) as [[s remaining]|e2]; simpl;
      [discriminate | done].
Qed.

(** C10: when the top-level fragment has no 'type' key, a target whose
    [__name__] is not a key of the compiler's components mapping makes
    [map_serializer] raise [KeyError], and a target without [__name__]
    makes it raise [AttributeError]. *)
Theorem map_serializer_missing_entry (target : pyobj)
    (reg : gmap string ResolvedComponent) (top : schema) (rest : list schema)
    (comps : gmap string schema) :
  schema_components [target] ref_template = Ok (top :: rest, comps) →
  has_key "type" top = false →
  (∀ n, name_attr target = Some n →
        (∀ k, n = NameStr k → comps !! k = None) →
        map_serializer schema_components target reg = Raise KeyError) ∧
  (name_attr target = None → map_serializer schema_components target reg = Raise AttributeError).
Proof.
  intros Hc Htop. rewrite (map_serializer_compiled _ _ _ _ _ Hc).
  unfold select_schema, get_name_attr. rewrite Htop. split.
  - intros n -> Hk. simpl. destruct n as [k|z]; simpl; [|done].
    by rewrite (Hk k eq_refl).
  - intros ->. reflexivity.
Qed.

End SchemaFor.

(** *** [get_iterable_class] *)

(** C7, as the code has it: [get_iterable_class] returns [is_list = true]
    exactly for a target that is not a class, whose [__name__] is a
    string that lower-cases to 'list' and whose [__args__] has an item
    under 0 (a sequence with a first item, or a mapping with the key
    0), and the class returned is that item; a class is returned as itself
    with [is_list = false]; a target that is not a class and whose
    [__name__] is absent or a string that does not lower-case to 'list'
    yields its runtime class with [is_list = false]. *)
Theorem get_iterable_class_spec (target : pyobj) :
  (∀ c, get_iterable_class target = Ok (c, true) ↔
        isclass target = false ∧
        (∃ s, name_attr target = Some (NameStr s) ∧ lower s = "list") ∧
        ((∃ rest, get_args_attr target = Ok (ArgsSeq (c :: rest))) ∨
         (∃ entries, get_args_attr target = Ok (ArgsDict entries) ∧
                     dict_get0 entries = Some c))) ∧
  (isclass target = true → get_iterable_class target = Ok (target, false)) ∧
  (isclass target = false →
   (∀ z, name_attr target ≠ Some (NameInt z)) →
   (∀ s, name_attr target = Some (NameStr s) → lower s ≠ "list") →
   get_iterable_class target = Ok (PClass (class_of target), false)).
Proof.
  split; [|split].
  - intros c. destruct target as [k|cls name args bases eq_any]; simpl.
    { split; [discriminate | intros [? _]; discriminate]. }
    unfold get_iterable_class. simpl. split.
    + destruct name as [[s|z]|]; simpl; try discriminate.
      destruct (String.eqb (lower s) "list") eqn:Hs; [|discriminate].
      apply String.eqb_eq in Hs.
      destruct args as [[[|x items]|z|entries]|]; simpl; try discriminate.
      * intros [= ->]. eauto 10.
      * destruct (dict_get0 entries) as [x|] eqn:Hd; simpl; [|discriminate].
        intros [= ->]. eauto 10.
    + intros (_ & (s & -> & Hs) & Hargs). simpl.
      rewrite Hs. simpl.
      destruct args as [a|]; [|by destruct Hargs as [[? ?]|(? & ? & _)]].
      destruct Hargs as [[rest [= ->]]|(entries & [= ->] & Hd)]; simpl.
      * reflexivity.
      * by rewrite Hd.
  - destruct target; [reflexivity | discriminate].
  - destruct target as [k|cls name args bases eq_any]; simpl; [discriminate|].
    intros _ Hint Hstr. unfold get_iterable_class. simpl.
    destruct name as [[s|z]|]; simpl.
    + destruct (String.eqb (lower s) "list") eqn:Hs; [|reflexivity].
      apply String.eqb_eq in Hs. by destruct (Hstr s).
    + by destruct (Hint z).
    + reflexivity.
Qed.

(** *** [get_name] *)

Lemma ArrayOf_fresh (s : string) : "ArrayOf" +:+ s ≠ s.
Proof.
  intros H. apply (f_equal String.length) in H.
  change (String.length ("ArrayOf" +:+ s)) with (7 + String.length s)%nat in H.
  lia.
Qed.

(** C4: for a class [T], [get_name] returns the class name, for
    [list[T]] it returns 'ArrayOf' followed by the class name, and the
    two names differ. *)
Theorem get_name_struct_and_list (T : klass) :
  get_name (PClass T) = Ok (NameStr (cname T)) ∧
  get_name (list_of (PClass T)) = Ok (NameStr ("ArrayOf" +:+ cname T)) ∧
  get_name (PClass T) ≠ get_name (list_of (PClass T)).
Proof.
  assert (get_name (PClass T) = Ok (NameStr (cname T))) as H1 by reflexivity.
  assert (get_name (list_of (PClass T)) = Ok (NameStr ("ArrayOf" +:+ cname T)))
    as H2 by reflexivity.
  repeat split; [done..|].
  rewrite H1, H2. intros [= H]. symmetry in H. by apply ArrayOf_fresh in H.
Qed.

(** *** [_matches] *)

Section Matches.

Variable import_string : string → option klass.

Lemma no_base_under (marker : klass) (bases : list klass) :
  (∀ b, b ∈ bases → subclass_of b marker = false) →
  existsb (λ b, subclass_of b marker) bases = false.
Proof.
  intros H. destruct (existsb _ bases) eqn:E; [|done].
  apply existsb_exists in E as (b & Hin & Hb).
  apply list_elem_of_In in Hin. by rewrite (H b Hin) in Hb.
Qed.

Lemma resolve_match_subclasses (cls : extension) :
  match_subclasses (resolve import_string cls) = match_subclasses cls.
Proof. unfold resolve, _load_class. by destruct (target_class cls). Qed.

Lemma resolve_not_str (cls : extension) :
  isinstance_str (target_class (resolve import_string cls)) = false.
Proof.
  unfold resolve, _load_class.
  destruct (target_class cls) as [path| |k] eqn:Htc; simpl; rewrite ?Htc; try done.
  by destruct (import_string path).
Qed.

Lemma resolve_resolved (cls : extension) :
  isinstance_str (target_class cls) = false → resolve import_string cls = cls.
Proof. unfold resolve. by intros ->. Qed.

(** C3: with the marker resolved to a class and subclass matching on,
    [_matches] accepts every subclass [T] of the marker and [list[T]],
    and rejects every target whose unwrapped class is not a subclass of
    the marker (for an unwrapped object that is not a class but has
    [__bases__]: none of whose bases is). *)
Theorem matches_structs (cls : extension) (marker : klass) :
  match_subclasses cls = true →
  target_class (resolve import_string cls) = TCClass marker →
  (∀ T, subclass_of T marker = true →
     fst (_matches import_string cls (PClass T)) = Ok true ∧
     fst (_matches import_string cls (list_of (PClass T))) = Ok true) ∧
  (∀ target c is_list,
     get_iterable_class target = Ok (c, is_list) →
     (∀ k, c = PClass k → subclass_of k marker = false) →
     (∀ bases b, bases_attr c = Some bases → b ∈ bases →
                 subclass_of b marker = false) →
     fst (_matches import_string cls target) = Ok false).
Proof.
  intros Hsub Hm. unfold _matches.
  rewrite resolve_match_subclasses, Hsub, Hm. simpl. split.
  - intros T HT. unfold list_of, generic_alias, get_iterable_class. simpl.
    by rewrite HT.
  - intros target c is_list -> Hc Hb. simpl.
    destruct c as [k|k name args [bases|] eq_any]; simpl; [|f_equal|reflexivity].
    + by rewrite (Hc k eq_refl).
    + apply no_base_under. intros b. apply (Hb bases b eq_refl).
Qed.

(** C5, as the code has it: [_matches] returns a boolean whenever
    [get_iterable_class] returns; with subclass matching on, a
    [TypeError] raised by [get_iterable_class] or by [issubclass] is
    caught and answered [False]; any other exception that
    [get_iterable_class] raises leaves [_matches], unless the marker is
    [None]. *)
Theorem matches_returns (cls : extension) (target : pyobj) :
  (returns (get_iterable_class target) ∨
     (match_subclasses cls = true ∧ get_iterable_class target = Raise TypeError) →
   returns (fst (_matches import_string cls target))) ∧
  (match_subclasses cls = true →
   get_iterable_class target = Raise TypeError →
   fst (_matches import_string cls target) = Ok false) ∧
  (match_subclasses cls = true →
   ∀ c is_list,
     get_iterable_class target = Ok (c, is_list) →
     issubclass c (target_class (resolve import_string cls)) = Raise TypeError →
     fst (_matches import_string cls target) = Ok false) ∧
  (∀ e, is_None (target_class (resolve import_string cls)) = false →
        get_iterable_class target = Raise e →
        e ≠ TypeError →
        fst (_matches import_string cls target) = Raise e).
Proof.
  unfold _matches. rewrite resolve_match_subclasses.
  split; [|split; [|split]].
  - intros H.
    destruct (is_None (target_class (resolve import_string cls)));
      simpl; [by eexists|].
    destruct H as [[[c b] ->]|[-> ->]]; simpl; [|by eexists].
    destruct (match_subclasses cls); simpl; [|by eexists].
    unfold issubclass.
    destruct (target_class (resolve import_string cls)) as [path| |marker];
      simpl; try (by eexists).
    destruct c as [k|k name args [bases|] eq_any]; simpl; by eexists.
  - intros -> ->. simpl. by destruct (is_None _).
  - intros -> c is_list -> Hraise. simpl.
    destruct (is_None _); [done|]. simpl. by rewrite Hraise.
  - intros e -> -> He. simpl.
    destruct (match_subclasses cls); simpl; [|done].
    by destruct e.
Qed.

(** C9: when the path of [target_class] resolves to nothing,
    [_matches] returns [False] for every target and leaves
    [target_class] at [None], so that every later call returns [False]
    as well. *)
Theorem matches_without_marker (cls : extension) (path : string)
    (target : pyobj) :
  target_class cls = TCStr path →
  import_string path = None →
  ∃ cls', _matches import_string cls target = (Ok false, cls') ∧
    target_class cls' = TCNone ∧
    ∀ target', _matches import_string cls' target' = (Ok false, cls').
Proof.
  intros Htc Himp.
  assert (target_class (resolve import_string cls) = TCNone) as Hnone.
  { unfold resolve, _load_class. rewrite Htc. simpl. by rewrite Himp. }
  exists (resolve import_string cls). split; [|split; [done|]].
  - unfold _matches. by rewrite Hnone.
  - intros target'. unfold _matches.
    rewrite (resolve_resolved (resolve import_string cls)) by by rewrite Hnone.
    by rewrite Hnone.
Qed.

End Matches.

(** ** The properties at concrete targets *)

Ltac run := vm_compute; reflexivity.

Example ex_map_serializer_Point :
  map_serializer msgspec_components (PClass Point) ∅ = Ok (Point_schema, ∅).
Proof. run. Qed.

Example ex_map_serializer_list_Point :
  map_serializer msgspec_components (list_of (PClass Point)) ∅ =
  Ok ([("type", JStr "array"); ("items", JDict (ref_to "Point"))],
      {[ "Point" := component_of "Point" Point_schema ]}).
Proof. run. Qed.

Example ex_map_serializer_Line :
  map_serializer msgspec_components (PClass Line) ∅ =
  Ok (Line_schema, {[ "Point" := component_of "Point" Point_schema ]}).
Proof. run. Qed.

Example ex_get_name_list_Point :
  get_name (list_of (PClass Point)) = Ok (NameStr "ArrayOfPoint").
Proof. reflexivity. Qed.

Example ex_matches_list_Point :
  fst (_matches import_msgspec MsgspecExtension (list_of (PClass Point))) = Ok true.
Proof. reflexivity. Qed.

Example ex_matches_forty_two :
  fst (_matches import_msgspec MsgspecExtension forty_two) = Ok false.
Proof. reflexivity. Qed.

Example ex_map_serializer_Path_sentinel :
  map_serializer msgspec_components (PClass Path) registry_with_sentinel =
  Ok (Path_schema, registry_after_Path).
Proof. run. Qed.

Lemma msgspec_list_Point :
  msgspec_components [list_of (PClass Point)] ref_template =
  Ok ([[("type", JStr "array"); ("items", JDict (ref_to "Point"))]],
      {[ "Point" := Point_schema ]}).
Proof. run. Qed.

Lemma msgspec_Point :
  msgspec_components [PClass Point] ref_template =
  Ok ([ref_to "Point"], {[ "Point" := Point_schema ]}).
Proof. run. Qed.

Lemma msgspec_Line :
  msgspec_components [PClass Line] ref_template =
  Ok ([ref_to "Line"], {[ "Line" := Line_schema; "Point" := Point_schema ]}).
Proof. run. Qed.

Lemma map_serializer_shape_witness :
  map_serializer msgspec_components (list_of (PClass Point)) ∅ =
    Ok ([("type", JStr "array"); ("items", JDict (ref_to "Point"))],
        register_components {[ "Point" := Point_schema ]} ∅) ∧
  map_serializer msgspec_components (PClass Line) ∅ =
    Ok (Line_schema,
        register_components
          (delete "Line" {[ "Line" := Line_schema; "Point" := Point_schema ]}) ∅).
Proof.
  split.
  - exact (proj1 (map_serializer_shape msgspec_components _ ∅ _ _ _
                    msgspec_list_Point) eq_refl).
  - refine (proj2 (map_serializer_shape msgspec_components _ ∅ _ _ _ msgspec_Line)
              eq_refl "Line" Line_schema eq_refl _).
    run.
Defined.

(** The registry holds a sentinel under 'Point'; documenting [Path],
    which refers to [Point] and [Line], leaves the sentinel in place and
    registers [Line]. *)
Lemma map_serializer_first_writer_wins_witness :
  ∃ top rest comps remaining,
    msgspec_components [PClass Path] ref_template = Ok (top :: rest, comps) ∧
    select_schema (PClass Path) top comps = Ok (Path_schema, remaining) ∧
    (∀ n old, registry_with_sentinel !! n = Some old →
              registry_after_Path !! n = Some old) ∧
    (∀ n, registry_with_sentinel !! n = None →
          registry_after_Path !! n = component_of n <$> remaining !! n).
Proof.
  apply (map_serializer_first_writer_wins msgspec_components (PClass Path)
           registry_with_sentinel registry_after_Path Path_schema).
  run.
Defined.

(** C6 as stated fails: msgspec files [Point] with 'type': 'object' at
    the root of its entry, and that entry is what [map_serializer]
    returns. *)
Lemma map_serializer_Point_has_type :
  ∃ s reg', map_serializer msgspec_components (PClass Point) ∅ = Ok (s, reg') ∧
            has_key "type" s = true.
Proof. exists Point_schema, ∅. split; run. Qed.

Lemma map_serializer_struct_witness :
  ∃ reg', map_serializer msgspec_components (PClass Point) ∅ = Ok (Point_schema, reg') ∧
    ∀ s reg'', map_serializer msgspec_components (PClass Point) ∅ = Ok (s, reg'') →
      has_key "type" s = has_key "type" Point_schema.
Proof.
  refine (map_serializer_struct msgspec_components Point ∅ _ _ _ Point_schema
            msgspec_Point eq_refl _).
  run.
Defined.

Lemma name_and_schema_idempotent_witness :
  map_serializer msgspec_components (PClass Line)
    {[ "Point" := component_of "Point" Point_schema ]} =
    Ok (Line_schema, {[ "Point" := component_of "Point" Point_schema ]}) ∧
  map_serializer msgspec_components forty_two registry_with_sentinel =
    Raise TypeError.
Proof.
  split.
  - refine (proj1 (proj2 (name_and_schema_idempotent msgspec_components
                            (PClass Line) ∅)) Line_schema _ _).
    run.
  - refine (proj2 (proj2 (name_and_schema_idempotent msgspec_components
                            forty_two ∅)) TypeError _ registry_with_sentinel).
    run.
Defined.

Lemma renaming_Point (target : pyobj) :
  renaming_components [target] ref_template =
  Ok ([ref_to "geometry.Point"], {[ "geometry.Point" := Point_schema ]}).
Proof. reflexivity. Qed.

Lemma map_serializer_missing_entry_witness :
  map_serializer renaming_components (PClass Point) ∅ = Raise KeyError ∧
  map_serializer renaming_components forty_two ∅ = Raise AttributeError.
Proof.
  split.
  - refine (proj1 (map_serializer_missing_entry renaming_components (PClass Point) ∅
                     _ _ _ (renaming_Point _) eq_refl) (NameStr "Point") eq_refl _).
    intros k [= <-]. run.
  - exact (proj2 (map_serializer_missing_entry renaming_components forty_two ∅
                    _ _ _ (renaming_Point _) eq_refl) eq_refl).
Defined.

(** C7 as stated fails: a function named [list] is not a class and its
    name is 'list', yet [get_iterable_class] does not return
    [is_list = true] for it; reading [__args__] raises. *)
Lemma get_iterable_class_view_named_list :
  isclass view_named_list = false ∧
  name_attr view_named_list = Some (NameStr "list") ∧
  get_iterable_class view_named_list = Raise AttributeError ∧
  ¬ ∃ c, get_iterable_class view_named_list = Ok (c, true).
Proof. repeat split. intros [c H]. discriminate H. Qed.

Lemma get_iterable_class_spec_witness :
  get_iterable_class (generic_alias "List" [PClass Point]) = Ok (PClass Point, true) ∧
  get_iterable_class dict_of_Point = Ok (PClass Point, true) ∧
  get_iterable_class (PClass Point) = Ok (PClass Point, false) ∧
  get_iterable_class forty_two = Ok (PClass int_class, false).
Proof.
  split; [|split; [|split]].
  - apply (proj1 (get_iterable_class_spec (generic_alias "List" [PClass Point]))).
    split; [reflexivity|]. split; [by exists "List" | left; by exists []].
  - apply (proj1 (get_iterable_class_spec dict_of_Point)).
    split; [reflexivity|]. split; [by exists "list"|].
    right. by exists [(0%Z, PClass Point)].
  - apply (proj1 (proj2 (get_iterable_class_spec (PClass Point)))). reflexivity.
  - apply (proj2 (proj2 (get_iterable_class_spec forty_two))).
    + reflexivity.
    + intros z H. discriminate H.
    + intros s H. discriminate H.
Defined.

Lemma matches_structs_witness :
  (fst (_matches import_msgspec MsgspecExtension (PClass Point)) = Ok true ∧
   fst (_matches import_msgspec MsgspecExtension (list_of (PClass Point))) = Ok true) ∧
  fst (_matches import_msgspec MsgspecExtension forty_two) = Ok false ∧
  fst (_matches import_msgspec MsgspecExtension (PClass int_class)) = Ok false ∧
  fst (_matches import_msgspec MsgspecExtension (list_of (list_of (PClass Point)))) =
    Ok false.
Proof.
  pose proof (matches_structs import_msgspec MsgspecExtension Struct eq_refl eq_refl)
    as [Hyes Hno].
  split; [|split; [|split]].
  - apply Hyes. reflexivity.
  - apply (Hno forty_two (PClass int_class) false eq_refl).
    + intros k [= <-]. reflexivity.
    + intros bases b H. discriminate H.
  - apply (Hno (PClass int_class) (PClass int_class) false eq_refl).
    + intros k [= <-]. reflexivity.
    + intros bases b H. discriminate H.
  - apply (Hno (list_of (list_of (PClass Point))) (list_of (PClass Point)) true
             eq_refl).
    + intros k H. discriminate H.
    + intros bases b [= <-] Hb. apply list_elem_of_singleton in Hb as ->.
      reflexivity.
Defined.

(** C5 as stated fails: [_matches] raises on a function named [list]. *)
Lemma matches_view_named_list_raises :
  fst (_matches import_msgspec MsgspecExtension view_named_list) = Raise AttributeError ∧
  ¬ returns (fst (_matches import_msgspec MsgspecExtension view_named_list)).
Proof. split; [reflexivity|]. intros [b H]. discriminate H. Qed.

Lemma matches_returns_witness :
  returns (fst (_matches import_msgspec MsgspecExtension forty_two)) ∧
  fst (_matches import_msgspec MsgspecExtension odd_list) = Ok false ∧
  fst (_matches import_msgspec MsgspecExtension (list_of forty_two)) = Ok false ∧
  fst (_matches import_msgspec MsgspecExtension view_named_list) =
    Raise AttributeError ∧
  fst (_matches import_msgspec MsgspecExtension empty_list_alias) =
    Raise IndexError ∧
  fst (_matches import_msgspec MsgspecExtension dict_list) = Raise KeyError.
Proof.
  split; [|split; [|split; [|split; [|split]]]].
  - apply (proj1 (matches_returns import_msgspec MsgspecExtension forty_two)).
    left. by exists (PClass int_class, false).
  - exact (proj1 (proj2 (matches_returns import_msgspec MsgspecExtension odd_list))
             eq_refl eq_refl).
  - exact (proj1 (proj2 (proj2
             (matches_returns import_msgspec MsgspecExtension (list_of forty_two))))
             eq_refl forty_two true eq_refl eq_refl).
  - apply (proj2 (proj2 (proj2
             (matches_returns import_msgspec MsgspecExtension view_named_list))));
      [reflexivity..|discriminate].
  - apply (proj2 (proj2 (proj2
             (matches_returns import_msgspec MsgspecExtension empty_list_alias))));
      [reflexivity..|discriminate].
  - apply (proj2 (proj2 (proj2
             (matches_returns import_msgspec MsgspecExtension dict_list))));
      [reflexivity..|discriminate].
Defined.

Lemma matches_without_marker_witness :
  ∃ cls', _matches import_nothing MsgspecExtension (PClass Point) = (Ok false, cls') ∧
    target_class cls' = TCNone ∧
    ∀ target', _matches import_nothing cls' target' = (Ok false, cls').
Proof.
  apply (matches_without_marker import_nothing MsgspecExtension "msgspec.Struct");
    reflexivity.
Defined.

(** ** Further properties of the blueprint *)

(** *** [get_iterable_class] and [get_name] *)

(** X1: when [get_iterable_class] returns [is_list = false], what it
    returns is a class, and unwrapping that class again gives it back
    unchanged. *)
Theorem get_iterable_class_plain_is_class (target c : pyobj) :
  get_iterable_class target = Ok (c, false) →
  isclass c = true ∧ get_iterable_class c = Ok (c, false).
Proof.
  destruct target as [k|cls name args bases eq_any];
    unfold get_iterable_class; simpl.
  - intros [= <-]. done.
  - destruct name as [[s|z]|]; simpl; try discriminate.
    + destruct (String.eqb (lower s) "list").
      * destruct args as [[[|x items]|z|entries]|]; simpl; try discriminate.
        destruct (dict_get0 entries); discriminate.
      * intros [= <-]. done.
    + intros [= <-]. done.
Qed.

Lemma get_iterable_class_plain_is_class_witness :
  isclass (PClass int_class) = true ∧
  get_iterable_class (PClass int_class) = Ok (PClass int_class, false).
Proof. exact (get_iterable_class_plain_is_class forty_two _ eq_refl). Defined.

Lemma ArrayOf_inj (a b : string) : "ArrayOf" +:+ a = "ArrayOf" +:+ b → a = b.
Proof. intros H. by apply (inj (String.app "ArrayOf")) in H. Qed.

(** X2: the component name depends on nothing but [__name__]: two
    classes get the same name exactly when their [__name__]s agree, and
    so do the lists of two classes; a class gets the name of [list[T]]
    exactly when it is itself called 'ArrayOf' followed by the name of
    [T]. *)
Theorem get_name_collisions (T U : klass) :
  (get_name (PClass T) = get_name (PClass U) ↔ cname T = cname U) ∧
  (get_name (list_of (PClass T)) = get_name (list_of (PClass U)) ↔
     cname T = cname U) ∧
  (get_name (PClass U) = get_name (list_of (PClass T)) ↔
     cname U = "ArrayOf" +:+ cname T).
Proof.
  assert (∀ k, get_name (PClass k) = Ok (NameStr (cname k))) as Hc by done.
  assert (∀ k, get_name (list_of (PClass k)) =
               Ok (NameStr ("ArrayOf" +:+ cname k))) as Hl by done.
  rewrite !Hc, !Hl. repeat split.
  - intros H. congruence.
  - by intros ->.
  - intros H. apply ArrayOf_inj. congruence.
  - by intros ->.
  - intros H. congruence.
  - by intros ->.
Qed.

(** X3: the fallback branch.  For a target that is not a class and
    whose [__name__] is absent or a string that does not lower-case to
    'list', [get_name] is the name of the target's runtime class. *)
Theorem get_name_fallback (target : pyobj) :
  isclass target = false →
  (∀ z, name_attr target ≠ Some (NameInt z)) →
  (∀ s, name_attr target = Some (NameStr s) → lower s ≠ "list") →
  get_name target = Ok (NameStr (cname (class_of target))).
Proof.
  intros Hc Hint Hstr.
  destruct target as [k|cls name args bases eq_any]; [discriminate|].
  unfold get_name, get_iterable_class. simpl in *.
  destruct name as [[s|z]|]; simpl.
  - destruct (String.eqb (lower s) "list") eqn:Hs; [|reflexivity].
    apply String.eqb_eq in Hs. by destruct (Hstr s).
  - by destruct (Hint z).
  - reflexivity.
Qed.

Lemma get_name_fallback_witness :
  get_name a_point = Ok (NameStr "Point") ∧ get_name forty_two = Ok (NameStr "int").
Proof.
  split.
  - apply (get_name_fallback a_point); [reflexivity|..];
      intros ? H; discriminate H.
  - apply (get_name_fallback forty_two); [reflexivity|..];
      intros ? H; discriminate H.
Defined.

(** X4: [get_name] returns exactly when [get_iterable_class] returns an
    object that has a [__name__]; otherwise it raises what
    [get_iterable_class] raised, or [AttributeError] for the missing
    [__name__]. *)
Theorem get_name_raises (target : pyobj) (e : exn) :
  get_name target = Raise e ↔
  get_iterable_class target = Raise e ∨
  (∃ c is_list, get_iterable_class target = Ok (c, is_list) ∧
                name_attr c = None ∧ e = AttributeError).
Proof.
  unfold get_name, get_name_attr.
  destruct (get_iterable_class target) as [[c b]|e'] eqn:Hg; simpl.
  - destruct (name_attr c) as [n|] eqn:Hn; simpl.
    + split.
      * destruct b; discriminate.
      * intros [H|(c' & b' & [= <- <-] & Hn' & _)]; [discriminate | congruence].
    + split.
      * intros [= <-]. right. by exists c, b.
      * intros [H|(_ & _ & _ & _ & ->)]; [discriminate | reflexivity].
  - split.
    + intros [= ->]. by left.
    + intros [[= ->]|(c & b & H & _)]; [reflexivity | discriminate].
Qed.

Lemma get_name_raises_witness :
  get_name (list_of forty_two) = Raise AttributeError ∧
  get_name empty_list_alias = Raise IndexError.
Proof.
  split.
  - apply (get_name_raises (list_of forty_two)). right.
    by exists forty_two, true.
  - apply (get_name_raises empty_list_alias). by left.
Defined.

(** *** [_matches] *)

Section MatchesFurther.

Variable import_string : string → option klass.

(** X6: with exact matching, a class matches exactly when it is the
    marker class itself, so a proper subclass does not; and nothing is
    caught: whatever [get_iterable_class] raises, a [TypeError]
    included, leaves [_matches]. *)
Theorem matches_exact_mode (cls : extension) (marker : klass) :
  match_subclasses cls = false →
  target_class (resolve import_string cls) = TCClass marker →
  (∀ T, fst (_matches import_string cls (PClass T)) =
        Ok (bool_decide (cid T = cid marker))) ∧
  (∀ target e, get_iterable_class target = Raise e →
               fst (_matches import_string cls target) = Raise e).
Proof.
  intros Hsub Hm. unfold _matches.
  rewrite resolve_match_subclasses, Hsub, Hm. simpl. split.
  - reflexivity.
  - by intros target e ->.
Qed.

(** X7: a call of [_matches] leaves the class resolved: a second call
    on the same target gives the same result and the same class, and no
    later call, whatever the import would now answer, changes the class
    again. *)
Theorem matches_resolves_once (cls : extension) (target : pyobj) :
  let r := _matches import_string cls target in
  _matches import_string (snd r) target = r ∧
  ∀ (import_later : string → option klass) (target' : pyobj),
    snd (_matches import_later (snd r) target') = snd r.
Proof.
  assert (∀ t, snd (_matches import_string cls t) = resolve import_string cls) as Hs.
  { intros t. unfold _matches.
    destruct (is_None _); [done|]. by destruct (match_subclasses _). }
  assert (∀ imp, resolve imp (resolve import_string cls) = resolve import_string cls)
    as Hr.
  { intros imp. unfold resolve at 1. by rewrite resolve_not_str. }
  simpl. rewrite Hs. split.
  - unfold _matches. by rewrite Hr.
  - intros imp t. unfold _matches. rewrite Hr.
    destruct (is_None _); [done|]. by destruct (match_subclasses _).
Qed.

(** X8: only one level of list is unwrapped.  With subclass matching
    on and the marker resolved, an object named 'list' whose first type
    argument is not a class is matched only if that argument has a
    [__bases__] tuple with a subclass of the marker in it, as a generic
    alias of a struct subclass has; a nested [list[list[T]]], whose
    inner alias has the bases of [list], is not matched, and neither is
    an argument without [__bases__] (the [TypeError] of [issubclass] is
    caught). *)
Theorem matches_rejects_nested (cls : extension) (marker : klass)
    (origin : string) (inner : pyobj) (others : list pyobj) :
  match_subclasses cls = true →
  target_class (resolve import_string cls) = TCClass marker →
  lower origin = "list" →
  isclass inner = false →
  fst (_matches import_string cls (generic_alias origin (inner :: others))) =
  Ok (match bases_attr inner with
      | Some bases => existsb (λ b, subclass_of b marker) bases
      | None => false
      end).
Proof.
  intros Hsub Hm Ho Hi. unfold _matches.
  rewrite resolve_match_subclasses, Hsub, Hm. simpl.
  unfold generic_alias, get_iterable_class. simpl. rewrite Ho. simpl.
  destruct inner as [k|k name args [bases|] eq_any]; [discriminate|done..].
Qed.

(** X9: the fallback branch.  With subclass matching on and the marker
    resolved, an object that is not a class and whose [__name__] is
    absent or a string that does not lower-case to 'list' is matched
    exactly when its runtime class is a subclass of the marker: an
    instance of a struct is matched like the struct. *)
Theorem matches_fallback (cls : extension) (marker : klass) (target : pyobj) :
  match_subclasses cls = true →
  target_class (resolve import_string cls) = TCClass marker →
  isclass target = false →
  (∀ z, name_attr target ≠ Some (NameInt z)) →
  (∀ s, name_attr target = Some (NameStr s) → lower s ≠ "list") →
  fst (_matches import_string cls target) =
  Ok (subclass_of (class_of target) marker).
Proof.
  intros Hsub Hm Hc Hint Hstr.
  unfold _matches. rewrite resolve_match_subclasses, Hsub, Hm. simpl.
  destruct target as [k|k name args bases eq_any]; [discriminate|].
  unfold get_iterable_class. simpl in *.
  destruct name as [[s|z]|]; simpl.
  - destruct (String.eqb (lower s) "list") eqn:Hs; [|reflexivity].
    apply String.eqb_eq in Hs. by destruct (Hstr s).
  - by destruct (Hint z).
  - reflexivity.
Qed.

(** X10: a target that [_matches] accepts, in either mode, is one that
    [get_iterable_class] unwraps without raising, and [get_name] fails
    for it only if the unwrapped object has no [__name__]: it returns
    the name of that object, with 'ArrayOf' in front when the target
    was a list, and in particular the class name when the object is a
    class. *)
Theorem matched_target_is_named (cls : extension) (target : pyobj) :
  fst (_matches import_string cls target) = Ok true →
  ∃ c is_list,
    get_iterable_class target = Ok (c, is_list) ∧
    (∀ n, name_attr c = Some n →
          get_name target =
          Ok (if is_list then NameStr ("ArrayOf" +:+ name_str n) else n)) ∧
    (name_attr c = None → get_name target = Raise AttributeError) ∧
    (isclass c = true → ∃ s, get_name target = Ok (NameStr s)).
Proof.
  unfold _matches, get_name, get_name_attr.
  destruct (is_None _); simpl; [discriminate|].
  destruct (get_iterable_class target) as [[c b]|e] eqn:Hg; simpl.
  - intros _. exists c, b. split; [done|]. split; [|split].
    + intros n ->. simpl. by destruct b.
    + by intros ->.
    + destruct c as [k|]; [|discriminate]. intros _. simpl.
      destruct b; by eexists.
  - destruct (match_subclasses (resolve import_string cls)); simpl;
      [|discriminate].
    destruct e; simpl; discriminate.
Qed.

(** X15: [_matches] sees through one level of list.  In either mode,
    an object named 'list' (in any letter case) whose first type
    argument is a class is matched exactly when that class is; further
    type arguments are not looked at. *)
Theorem matches_list_transparent (cls : extension) (origin : string)
    (T : klass) (others : list pyobj) :
  lower origin = "list" →
  _matches import_string cls (generic_alias origin (PClass T :: others)) =
  _matches import_string cls (PClass T).
Proof.
  intros Ho. unfold _matches, generic_alias, get_iterable_class. simpl.
  by rewrite Ho.
Qed.

End MatchesFurther.

Lemma matches_exact_mode_witness :
  fst (_matches import_msgspec ExactExtension (PClass Struct)) = Ok true ∧
  fst (_matches import_msgspec ExactExtension (PClass Point)) = Ok false ∧
  fst (_matches import_msgspec ExactExtension odd_list) = Raise TypeError.
Proof.
  pose proof (matches_exact_mode import_msgspec ExactExtension Struct
                eq_refl eq_refl) as [Hclass Hraise].
  split; [|split].
  - exact (Hclass Struct).
  - exact (Hclass Point).
  - exact (Hraise odd_list TypeError eq_refl).
Defined.

Lemma matches_rejects_nested_witness :
  fst (_matches import_msgspec MsgspecExtension
         (generic_alias "List" [list_of (PClass Point)])) = Ok false ∧
  fst (_matches import_msgspec MsgspecExtension (list_of forty_two)) = Ok false ∧
  fst (_matches import_msgspec MsgspecExtension (list_of Point_alias)) = Ok true.
Proof.
  split; [|split].
  - exact (matches_rejects_nested import_msgspec MsgspecExtension Struct "List"
             (list_of (PClass Point)) [] eq_refl eq_refl eq_refl eq_refl).
  - exact (matches_rejects_nested import_msgspec MsgspecExtension Struct "list"
             forty_two [] eq_refl eq_refl eq_refl eq_refl).
  - exact (matches_rejects_nested import_msgspec MsgspecExtension Struct "list"
             Point_alias [] eq_refl eq_refl eq_refl eq_refl).
Defined.

Lemma matches_fallback_witness :
  fst (_matches import_msgspec MsgspecExtension a_point) = Ok true.
Proof.
  refine (matches_fallback import_msgspec MsgspecExtension Struct a_point
            eq_refl eq_refl eq_refl _ _); intros ? H; discriminate H.
Defined.

Lemma matches_list_transparent_witness :
  _matches import_msgspec ExactExtension
    (generic_alias "LIST" [PClass Struct; PClass int_class]) =
  _matches import_msgspec ExactExtension (PClass Struct).
Proof.
  exact (matches_list_transparent import_msgspec ExactExtension "LIST" Struct
           [PClass int_class] eq_refl).
Defined.

(** [list[Point]] is matched and named 'ArrayOfPoint'; with exact
    matching, a list of [unittest.mock.ANY] is matched too, and
    [get_name] raises for it. *)
Lemma matched_target_is_named_witness :
  (∃ c is_list,
     get_iterable_class (list_of (PClass Point)) = Ok (c, is_list) ∧
     (∀ n, name_attr c = Some n →
           get_name (list_of (PClass Point)) =
           Ok (if is_list then NameStr ("ArrayOf" +:+ name_str n) else n)) ∧
     (name_attr c = None → get_name (list_of (PClass Point)) = Raise AttributeError) ∧
     (isclass c = true → ∃ s, get_name (list_of (PClass Point)) = Ok (NameStr s))) ∧
  (∃ c is_list,
     get_iterable_class (list_of mock_ANY) = Ok (c, is_list) ∧
     (∀ n, name_attr c = Some n →
           get_name (list_of mock_ANY) =
           Ok (if is_list then NameStr ("ArrayOf" +:+ name_str n) else n)) ∧
     (name_attr c = None → get_name (list_of mock_ANY) = Raise AttributeError) ∧
     (isclass c = true → ∃ s, get_name (list_of mock_ANY) = Ok (NameStr s))).
Proof.
  split.
  - exact (matched_target_is_named import_msgspec MsgspecExtension
             (list_of (PClass Point)) eq_refl).
  - exact (matched_target_is_named import_msgspec ExactExtension
             (list_of mock_ANY) eq_refl).
Defined.

(** *** [map_serializer] *)

Section SchemaForFurther.

Variable schema_components :
  list pyobj → string → result (list schema * gmap string schema).

(** X11: the ways [map_serializer] fails.  It raises [e] exactly when
    the compiler raised [e]; or the compiler returned no top-level
    fragment and [e] is [IndexError]; or the top-level fragment has no
    'type' key and either the target has no [__name__] and [e] is
    [AttributeError], or its [__name__] is not a key of the components
    mapping and [e] is [KeyError]. *)
Theorem map_serializer_raises_iff (target : pyobj)
    (reg : gmap string ResolvedComponent) (e : exn) :
  map_serializer schema_components target reg = Raise e ↔
  schema_components [target] ref_template = Raise e ∨
  (∃ comps, schema_components [target] ref_template = Ok ([], comps) ∧
            e = IndexError) ∨
  (∃ top rest comps,
     schema_components [target] ref_template = Ok (top :: rest, comps) ∧
     has_key "type" top = false ∧
     ((name_attr target = None ∧ e = AttributeError) ∨
      (∃ n, name_attr target = Some n ∧
            (∀ k, n = NameStr k → comps !! k = None) ∧ e = KeyError))).
Proof.
  unfold map_serializer.
  destruct (schema_components [target] ref_template) as [[tops comps]|e0]; simpl.
  2:{ split.
      - intros [= ->]. by left.
      - intros [[= ->]|[(? & H & _)|(? & ? & ? & H & _)]];
          [reflexivity | discriminate..]. }
  destruct tops as [|top rest]; simpl.
  { split.
    - intros [= <-]. right. left. by exists comps.
    - intros [H|[(? & _ & ->)|(? & ? & ? & H & _)]];
        [discriminate | reflexivity | discriminate]. }
  unfold select_schema, get_name_attr.
  destruct (has_key "type" top) eqn:Htop; simpl.
  { split; [discriminate|].
    intros [H|[(? & H & _)|(? & ? & ? & [= <- _ _] & Hf & _)]];
      [discriminate.. | congruence]. }
  destruct (name_attr target) as [[k|z]|] eqn:Hn; simpl.
  - destruct (comps !! k) as [s|] eqn:Hk; simpl.
    + split; [discriminate|].
      intros [H|[(? & H & _)|(? & ? & ? & [= _ _ <-] & _ & [[H _]|(n & [= <-] & Hk' & _)])]];
        try discriminate.
      rewrite (Hk' k eq_refl) in Hk. discriminate.
    + split.
      * intros [= <-]. right. right. exists top, rest, comps.
        repeat split; try done. right. exists (NameStr k).
        repeat split; try done. by intros ? [= <-].
      * intros [H|[(? & H & _)|(? & ? & ? & _ & _ & [[H _]|(? & _ & _ & ->)])]];
          [discriminate.. | reflexivity].
  - split.
    + intros [= <-]. right. right. exists top, rest, comps.
      repeat split; try done. right. exists (NameInt z).
      repeat split; try done.
    + intros [H|[(? & H & _)|(? & ? & ? & _ & _ & [[H _]|(? & _ & _ & ->)])]];
        [discriminate.. | reflexivity].
  - split.
    + intros [= <-]. right. right. exists top, rest, comps.
      repeat split; try done. by left.
    + intros [H|[(? & H & _)|(? & ? & ? & _ & _ & [[_ ->]|(? & H & _)])]];
        [discriminate | discriminate | reflexivity | discriminate].
Qed.

(** X12: when the fragment returned is the target's own entry, the
    call leaves the target's own name in the registry as it was: the
    entry it took out of the mapping is not registered. *)
Theorem map_serializer_skips_own_name (target : pyobj)
    (reg reg' : gmap string ResolvedComponent) (top : schema) (rest : list schema)
    (comps : gmap string schema) (n : string) (s : schema) :
  schema_components [target] ref_template = Ok (top :: rest, comps) →
  has_key "type" top = false →
  name_attr target = Some (NameStr n) →
  map_serializer schema_components target reg = Ok (s, reg') →
  reg' !! n = reg !! n.
Proof.
  intros Hc Htop Hn.
  rewrite (map_serializer_compiled _ _ _ _ _ _ Hc).
  unfold select_schema, get_name_attr. rewrite Htop, Hn. simpl.
  destruct (comps !! n) as [entry|]; simpl; [|discriminate].
  intros [= _ <-]. rewrite register_components_lookup, lookup_delete_eq.
  by destruct (reg !! n).
Qed.

(** X13: after a call that returns, every component in the registry
    was there before the call, or is a component of type [SCHEMA] whose
    name and object are the key it is stored under. *)
Theorem map_serializer_new_components (target : pyobj)
    (reg reg' : gmap string ResolvedComponent) (s : schema) (n : string)
    (c : ResolvedComponent) :
  map_serializer schema_components target reg = Ok (s, reg') →
  reg' !! n = Some c →
  reg !! n = Some c ∨
  (reg !! n = None ∧ rc_name c = n ∧ rc_type c = SCHEMA ∧ rc_object c = n).
Proof.
  intros H.
  apply map_serializer_Ok in H as (top & rest & comps & remaining & _ & _ & ->).
  rewrite register_components_lookup.
  destruct (reg !! n) as [old|]; [by left|].
  destruct (remaining !! n) as [sub|]; simpl; [|discriminate].
  intros [= <-]. by right.
Qed.

(** X14: the order in which two targets are documented does not
    matter as long as, on every name that was free, the components the
    two calls register agree: either order returns the same two
    fragments and ends in the same registry. *)
Theorem map_serializer_order (t1 t2 : pyobj)
    (reg r1 r2 : gmap string ResolvedComponent) (s1 s2 : schema) :
  map_serializer schema_components t1 reg = Ok (s1, r1) →
  map_serializer schema_components t2 reg = Ok (s2, r2) →
  (∀ n, reg !! n = None → r1 !! n = None ∨ r2 !! n = None ∨ r1 !! n = r2 !! n) →
  ∃ r, map_serializer schema_components t2 r1 = Ok (s2, r) ∧
       map_serializer schema_components t1 r2 = Ok (s1, r).
Proof.
  intros H1 H2 Hagree.
  destruct (map_serializer_fragment _ _ _ r2 _ _ H1) as (rem1 & Hr1 & H12).
  destruct (map_serializer_fragment _ _ _ r1 _ _ H2) as (rem2 & Hr2 & H21).
  exists (register_components rem2 r1). split; [done|].
  rewrite H12. do 2 f_equal. apply map_eq. intros n.
  specialize (Hagree n). revert Hagree.
  rewrite !register_components_lookup, Hr1, Hr2, !register_components_lookup.
  destruct (reg !! n) as [old|]; [done|].
  intros Hagree. specialize (Hagree eq_refl).
  destruct (rem1 !! n) as [a|], (rem2 !! n) as [b|]; simpl in *; try done.
  by destruct Hagree as [?|[?|[= ->]]].
Qed.

End SchemaForFurther.

Lemma map_serializer_Line_empty :
  map_serializer msgspec_components (PClass Line) ∅ =
  Ok (Line_schema, registry_with_Point).
Proof. run. Qed.

Lemma map_serializer_list_Point_empty :
  map_serializer msgspec_components (list_of (PClass Point)) ∅ =
  Ok ([("type", JStr "array"); ("items", JDict (ref_to "Point"))],
      registry_with_Point).
Proof. run. Qed.

Lemma map_serializer_Path_sentinel :
  map_serializer msgspec_components (PClass Path) registry_with_sentinel =
  Ok (Path_schema, registry_after_Path).
Proof. run. Qed.

Lemma map_serializer_skips_own_name_witness :
  registry_with_Point !! "Line" = (∅ : gmap string ResolvedComponent) !! "Line".
Proof.
  exact (map_serializer_skips_own_name msgspec_components (PClass Line) ∅
           registry_with_Point _ _ _ "Line" Line_schema
           msgspec_Line eq_refl eq_refl map_serializer_Line_empty).
Defined.

Lemma map_serializer_new_components_witness :
  registry_with_sentinel !! "Line" = Some (component_of "Line" Line_schema) ∨
  (registry_with_sentinel !! "Line" = None ∧
   rc_name (component_of "Line" Line_schema) = "Line" ∧
   rc_type (component_of "Line" Line_schema) = SCHEMA ∧
   rc_object (component_of "Line" Line_schema) = "Line").
Proof.
  refine (map_serializer_new_components msgspec_components (PClass Path)
            registry_with_sentinel registry_after_Path Path_schema "Line"
            (component_of "Line" Line_schema) map_serializer_Path_sentinel _).
  run.
Defined.

Lemma map_serializer_order_witness :
  ∃ r,
    map_serializer msgspec_components (list_of (PClass Point)) registry_with_Point =
      Ok ([("type", JStr "array"); ("items", JDict (ref_to "Point"))], r) ∧
    map_serializer msgspec_components (PClass Line) registry_with_Point =
      Ok (Line_schema, r).
Proof.
  refine (map_serializer_order msgspec_components (PClass Line)
            (list_of (PClass Point)) ∅ registry_with_Point registry_with_Point
            Line_schema _ map_serializer_Line_empty
            map_serializer_list_Point_empty _).
  intros n _. right. right. reflexivity.
Defined.

(** Two classes called [Point] share a component name, and so do the
    class [ArrayOfPoint] and [list[Point]]. *)
Lemma get_name_collisions_witness :
  get_name (PClass Point) = get_name (PClass other_Point) ∧
  get_name (PClass ArrayOfPoint) = get_name (list_of (PClass Point)).
Proof.
  split.
  - apply (proj1 (get_name_collisions Point other_Point)). reflexivity.
  - apply (proj2 (proj2 (get_name_collisions Point ArrayOfPoint))). reflexivity.
Defined.
